(** * Failover firewall rules: [failover.firewall] (iptables_linux.py)

    A shallow embedding of the [IptablesService] plugin: the rule generator
    [generate_rules], the rule file writer [write_files], the activator
    [restore_files] and the two top-level jobs [drop_all] and [accept_all].

    Python values are modelled as follows.
    - [str] is a [string]; a line of a ruleset is one element of a
      [list string] and carries its trailing line feed, as in the source.
    - [int] is a [Z]; an f-string field holding an int prints it in decimal.
    - [bytes] is a [list byte].
    - A dict with a fixed set of keys is a record whose fields are the keys.
    - The collaborators reached through [self.middleware.call], the file
      system and the shell are a [Platform] of oracles over the current
      [World]; every interaction with them is logged as an [event]. *)

From Stdlib Require Import ZArith String Ascii List DecimalString.
From Stdlib.Strings Require Import Byte.
From stdpp Require Import gmap strings list.

Open Scope string_scope.
Open Scope list_scope.

(** ** Python strings *)

Module PyStr.

Definition LF : string := String (ascii_of_nat 10) EmptyString.

(** [f'{n}'] for an int [n]. *)
Definition of_int (n : Z) : string := NilZero.string_of_int (Z.to_int n).

(** [s.endswith(suf)]. *)
Fixpoint ends_with (suf s : string) : bool :=
  if String.eqb s suf then true
  else match s with
       | EmptyString => false
       | String _ s' => ends_with suf s'
       end.

(** [s.startswith(pre)]. *)
Fixpoint starts_with (pre s : string) : bool :=
  match pre, s with
  | EmptyString, _ => true
  | String _ _, EmptyString => false
  | String a pre', String b s' => Ascii.eqb a b && starts_with pre' s'
  end.

(** [''.join(lines)], what [f.writelines(lines)] leaves in the file. *)
Definition join (lines : list string) : string :=
  String.concat EmptyString lines.

(** [l.insert(i, x)] for [i >= 0]: an index past the end appends. *)
Definition insert {A} (i : nat) (x : A) (l : list A) : list A :=
  take i l ++ x :: drop i l.

(** Truth value of an int: [if n:]. *)
Definition truthy (n : Z) : bool := negb (n =? 0)%Z.

End PyStr.

(** ** The utf8 codec with the [ignore] error handler

    [bytes.decode("utf8", "ignore")] belongs to the Python runtime, not to
    this plugin.  The jobs take the decoder from the [Platform]; this
    definition is the decoder of the test platforms below.  A decoded text
    is kept as its UTF-8 bytes, so decoding with [ignore] keeps the
    well-formed sequences and drops every maximal ill-formed part. *)

Module Utf8.

Definition between (lo hi : N) (b : byte) : bool :=
  ((lo <=? Byte.to_N b) && (Byte.to_N b <=? hi))%N.

Definition continuation : byte -> bool := between 128 191.

(** The second byte allowed after the lead byte [b0] of a 3-byte form. *)
Definition second3 (b0 : byte) : byte -> bool :=
  if (Byte.to_N b0 =? 224)%N then between 160 191
  else if (Byte.to_N b0 =? 237)%N then between 128 159
  else continuation.

(** The second byte allowed after the lead byte [b0] of a 4-byte form. *)
Definition second4 (b0 : byte) : byte -> bool :=
  if (Byte.to_N b0 =? 240)%N then between 144 191
  else if (Byte.to_N b0 =? 244)%N then between 128 143
  else continuation.

Definition keep (b : byte) (s : string) : string :=
  String (ascii_of_byte b) s.

Fixpoint decode_ignore (bs : list byte) : string :=
  match bs with
  | [] => EmptyString
  | b0 :: r0 =>
    if between 0 127 b0 then keep b0 (decode_ignore r0)
    else if between 194 223 b0 then
      match r0 with
      | [] => EmptyString
      | b1 :: r1 =>
        if continuation b1 then keep b0 (keep b1 (decode_ignore r1))
        else decode_ignore r0
      end
    else if between 224 239 b0 then
      match r0 with
      | [] => EmptyString
      | b1 :: r1 =>
        if second3 b0 b1 then
          match r1 with
          | [] => EmptyString
          | b2 :: r2 =>
            if continuation b2
            then keep b0 (keep b1 (keep b2 (decode_ignore r2)))
            else decode_ignore r1
          end
        else decode_ignore r0
      end
    else if between 240 244 b0 then
      match r0 with
      | [] => EmptyString
      | b1 :: r1 =>
        if second4 b0 b1 then
          match r1 with
          | [] => EmptyString
          | b2 :: r2 =>
            if continuation b2 then
              match r2 with
              | [] => EmptyString
              | b3 :: r3 =>
                if continuation b3
                then keep b0 (keep b1 (keep b2 (keep b3 (decode_ignore r3))))
                else decode_ignore r2
              end
            else decode_ignore r1
          end
        else decode_ignore r0
      end
    else decode_ignore r0
  end.

End Utf8.

(** ** Data model *)

(** One entry of [interface.ip_in_use]: the keys read by the generator. *)
Record Address : Type := mkAddress {
  type : string;
  address : string
}.

(** The argument of [generate_rules]: [{'drop': ..., 'vips': [...]}]. *)
Record Data : Type := mkData {
  drop : bool;
  vips : list Address
}.

(** [ssh.config]: the key read by the generator. *)
Record SshConfig : Type := mkSshConfig {
  tcpport : Z
}.

(** [system.general.config]: the keys read by the generator. *)
Record GeneralConfig : Type := mkGeneralConfig {
  ui_port : Z;
  ui_httpsport : Z
}.

(** What [Popen(...).communicate()] leaves behind. *)
Record Completed : Type := mkCompleted {
  returncode : Z;
  out : list byte;
  err : list byte
}.

Inductive exn : Type :=
| CallError (errmsg : string)
| AttributeError (type_name attribute : string).

Inductive outcome (A : Type) : Type :=
| Return (a : A)
| Raise (e : exn).

Arguments Return {A} a.
Arguments Raise {A} e.

(** ** The world outside the plugin *)

Inductive event : Type :=
| EvCall (method : string)
| EvWrite (path : string) (failure : option string)
| EvPopen (cmd : string).

Record World : Type := mkWorld {
  files : gmap string string;
  events : list event
}.

Definition log (ev : event) (w : World) : World :=
  {| files := files w; events := events w ++ [ev] |}.

(** The collaborators.  [os_write path lines w] is [Some (e, fs)] when
    opening or writing [path] raises an exception whose text is [e],
    leaving the files [fs]; [None] when the write succeeds. *)
Record Platform : Type := mkPlatform {
  failover_licensed : World -> bool;
  interface_ip_in_use : World -> list Address;
  ssh_config : World -> SshConfig;
  system_general_config : World -> GeneralConfig;
  os_write : string -> list string -> World -> option (string * gmap string string);
  shell : string -> World -> Completed;
  decode_utf8_ignore : list byte -> string
}.

(** ** State and exceptions *)

Definition M (A : Type) : Type := World -> outcome A * World.

Definition ret {A} (a : A) : M A := fun w => (Return a, w).

Definition raise {A} (e : exn) : M A := fun w => (Raise e, w).

Definition bind {A B} (m : M A) (k : A -> M B) : M B :=
  fun w =>
    match m w with
    | (Return a, w') => k a w'
    | (Raise e, w') => (Raise e, w')
    end.

Notation "'do' x <- m ; k" := (bind m (fun x => k))
  (at level 10, x name, m at level 100, k at level 200).
Notation "'do' ' pat <- m ; k" :=
  (bind m (fun x => match x with pat => k end))
  (at level 10, pat pattern, m at level 100, k at level 200).

(** An interaction with the outside: the oracle answers, the event is logged. *)
Definition perform {A} (ev : event) (oracle : World -> A) : M A :=
  fun w => (Return (oracle w), log ev w).

(** The events a computation adds to the log of [w]. *)
Definition trace {A} (m : M A) (w : World) : list event :=
  List.skipn (length (events w)) (events (snd (m w))).

Definition result {A} (m : M A) (w : World) : outcome A := fst (m w).

(** ** The service *)

Import PyStr.

Definition V4_FILE : string := "/data/v4-fw.rules".
Definition V6_FILE : string := "/data/v6-fw.rules".

(** [await self.middleware.call(method)] answered by a collaborator. *)
Definition middleware_query {A} (method : string) (oracle : World -> A) : M A :=
  perform (EvCall method) oracle.

(** [await self.middleware.call(method, ...)] dispatched to this service. *)
Definition middleware_call {A} (method : string) (body : M A) : M A :=
  do _ <- perform (EvCall method) (fun _ => tt); body.

(** The loop over [data['vips']]: one step for the entry [i]. *)
Definition append_vip (rules : list string * list string) (i : Address)
  : list string * list string :=
  let (v4rules, v6rules) := rules in
  if String.eqb (type i) "INET" then
    (v4rules ++ ["-A INPUT -s " +:+ address i +:+ "/32 -j DROP" +:+ LF], v6rules)
  else if String.eqb (type i) "INET6" then
    (v4rules, v6rules ++ ["-A INPUT -d " +:+ address i +:+ "/128 -j DROP" +:+ LF])
  else (v4rules, v6rules).

Definition generate_rules (P : Platform) (data : Data)
  : M (list string * list string) :=
  (* rules always start with this line *)
  let v4rules := ["*filter" +:+ LF] in
  let v6rules := ["*filter" +:+ LF] in
  (* v4 default section *)
  let v4rules := insert 1 (":INPUT ACCEPT [0:0]" +:+ LF) v4rules in
  let v4rules := insert 2 (":FORWARD ACCEPT [0:0]" +:+ LF) v4rules in
  let v4rules := insert 3 (":OUTPUT ACCEPT [0:0]" +:+ LF) v4rules in
  (* v6 default section *)
  let v6rules := insert 1 (":INPUT ACCEPT [0:0]" +:+ LF) v6rules in
  let v6rules := insert 2 (":FORWARD ACCEPT [0:0]" +:+ LF) v6rules in
  let v6rules := insert 3 (":OUTPUT ACCEPT [0:0]" +:+ LF) v6rules in
  do '(v4rules, v6rules) <-
    (if drop data then
       do sshport <- middleware_query "ssh.config" (fun w => tcpport (ssh_config P w));
       do web <- middleware_query "system.general.config" (system_general_config P);
       (* v4 ssh/webUI rules *)
       let v4rules := v4rules ++ ["-A INPUT -p tcp -m tcp --dport " +:+ of_int sshport +:+ " -j ACCEPT" +:+ LF] in
       let v4rules := v4rules ++ ["-A INPUT -p tcp -m tcp --dport " +:+ of_int (ui_port web) +:+ " -j ACCEPT" +:+ LF] in
       let v4rules := v4rules ++ ["-A INPUT -p tcp -m tcp --dport " +:+ of_int (ui_httpsport web) +:+ " -j ACCEPT" +:+ LF] in
       (* v6 ssh/webUI rules *)
       let v6rules := v6rules ++ ["-A INPUT -p tcp -m tcp --dport " +:+ of_int sshport +:+ " -j ACCEPT" +:+ LF] in
       let v6rules := v6rules ++ ["-A INPUT -p tcp -m tcp --dport " +:+ of_int (ui_port web) +:+ " -j ACCEPT" +:+ LF] in
       let v6rules := v6rules ++ ["-A INPUT -p tcp -m tcp --dport " +:+ of_int (ui_httpsport web) +:+ " -j ACCEPT" +:+ LF] in
       (* only block the VIPs *)
       ret (fold_left append_vip (vips data) (v4rules, v6rules))
     else ret (v4rules, v6rules));
  (* the final line to be written should be COMMIT *)
  let v4rules := v4rules ++ ["COMMIT" +:+ LF] in
  let v6rules := v6rules ++ ["COMMIT" +:+ LF] in
  ret (v4rules, v6rules).

(** [with open(path, 'w+') as f: f.writelines(lines)] under [try]: the
    answer is the text of the exception caught, if any. *)
Definition open_writelines (P : Platform) (path : string) (lines : list string)
  : M (option string) :=
  fun w =>
    match os_write P path lines w with
    | Some (e, fs) =>
      (Return (Some e),
       {| files := fs; events := events w ++ [EvWrite path (Some e)] |})
    | None =>
      (Return None,
       {| files := <[path := join lines]> (files w);
          events := events w ++ [EvWrite path None] |})
    end.

Definition write_files (P : Platform) (v4rules v6rules : list string) : M unit :=
  do caught <- open_writelines P V4_FILE v4rules;
  match caught with
  | Some e => raise (CallError ("Failed writing " +:+ V4_FILE +:+ " with error " +:+ e))
  | None =>
    do caught <- open_writelines P V6_FILE v6rules;
    match caught with
    | Some e => raise (CallError ("Failed writing " +:+ V6_FILE +:+ " with error " +:+ e))
    | None => ret tt
    end
  end.

(** [subprocess.Popen(cmd, ..., shell=True)] followed by [communicate()]. *)
Definition popen (P : Platform) (cmd : string) : M Completed :=
  perform (EvPopen cmd) (shell P cmd).

Definition restore_files (P : Platform) (v4rules v6rules : list string) : M unit :=
  (* load the v4 rules *)
  let cmd := "iptables-restore < " +:+ V4_FILE in
  do p1 <- popen P cmd;
  if truthy (returncode p1) then
    raise (CallError ("Failed restoring firewall rules: "
                      +:+ decode_utf8_ignore P (err p1)))
  else
    (* load the v6 rules *)
    let cmd2 := "ip6tables-restore < " +:+ V6_FILE in
    do p2 <- popen P cmd2;
    if truthy (returncode p2) then
      (* [err.deocde]: bytes has no such attribute *)
      raise (AttributeError "bytes" "deocde")
    else ret tt.

Definition drop_all (P : Platform) : M bool :=
  do licensed <- middleware_query "failover.licensed" (failover_licensed P);
  if negb licensed then ret false
  else
    (* get vips *)
    do vips <- middleware_query "interface.ip_in_use" (interface_ip_in_use P);
    match vips with
    | [] => raise (CallError "No VIP addresses detected on system")
    | _ :: _ =>
      let data := {| drop := true; vips := vips |} in
      do '(v4rules, v6rules) <-
        middleware_call "failover.firewall.generate_rules" (generate_rules P data);
      do _ <- middleware_call "failover.firewall.write_files"
                (write_files P v4rules v6rules);
      do _ <- middleware_call "failover.firewall.restore_files"
                (restore_files P v4rules v6rules);
      ret true
    end.

Definition accept_all (P : Platform) : M bool :=
  do licensed <- middleware_query "failover.licensed" (failover_licensed P);
  if negb licensed then ret false
  else
    let data := {| drop := false; vips := [] |} in
    do '(v4rules, v6rules) <-
      middleware_call "failover.firewall.generate_rules" (generate_rules P data);
    do _ <- middleware_call "failover.firewall.write_files"
              (write_files P v4rules v6rules);
    do _ <- middleware_call "failover.firewall.restore_files"
              (restore_files P v4rules v6rules);
    ret true.

(** ** Reading a ruleset *)

(** A rule line that appends to a chain and jumps to ACCEPT. *)
Definition is_accept (line : string) : bool :=
  starts_with "-A " line && ends_with (" -j ACCEPT" +:+ LF) line.

(** A rule line that appends to a chain and jumps to DROP. *)
Definition is_drop (line : string) : bool :=
  starts_with "-A " line && ends_with (" -j DROP" +:+ LF) line.

(** The selector of an INPUT rule: [-d] matches the destination address of
    a packet, [-s] its source address. *)
Definition matches_destination (line : string) : bool :=
  starts_with "-A INPUT -d " line.

Definition matches_source (line : string) : bool :=
  starts_with "-A INPUT -s " line.

(** The accept line of one admin port. *)
Definition accept_line (port : Z) : string :=
  "-A INPUT -p tcp -m tcp --dport " +:+ of_int port +:+ " -j ACCEPT" +:+ LF.

(** The admin ports as [generate_rules] learns them when called in [w]:
    the remote-shell port, the web-UI plain port, the web-UI encrypted port. *)
Definition admin_ports (P : Platform) (w : World) : list Z :=
  let web := system_general_config P (log (EvCall "ssh.config") w) in
  [tcpport (ssh_config P w); ui_port web; ui_httpsport web].

(** The table marker and the default section shared by every ruleset. *)
Definition default_section : list string :=
  ["*filter" +:+ LF;
   ":INPUT ACCEPT [0:0]" +:+ LF;
   ":FORWARD ACCEPT [0:0]" +:+ LF;
   ":OUTPUT ACCEPT [0:0]" +:+ LF].

Definition is_inet (i : Address) : bool := String.eqb (type i) "INET".
Definition is_inet6 (i : Address) : bool := String.eqb (type i) "INET6".

(** The drop lines of the IPv4 ruleset, one per INET entry, in order. *)
Definition v4_drops (vs : list Address) : list string :=
  map (fun i => "-A INPUT -s " +:+ address i +:+ "/32 -j DROP" +:+ LF)
      (List.filter is_inet vs).

(** The drop lines of the IPv6 ruleset, one per INET6 entry, in order. *)
Definition v6_drops (vs : list Address) : list string :=
  map (fun i => "-A INPUT -d " +:+ address i +:+ "/128 -j DROP" +:+ LF)
      (List.filter is_inet6 vs).

(** The two shell commands of the activator. *)
Definition cmd_v4 : string := "iptables-restore < /data/v4-fw.rules".
Definition cmd_v6 : string := "ip6tables-restore < /data/v6-fw.rules".

(** Both table reloads are attempted by one call of [restore_files]. *)
Definition both_attempted (P : Platform) (v4rules v6rules : list string)
    (w : World) : Prop :=
  In (EvPopen cmd_v4) (trace (restore_files P v4rules v6rules) w) /\
  In (EvPopen cmd_v6) (trace (restore_files P v4rules v6rules) w).

Definition is_popen (ev : event) : bool :=
  match ev with EvPopen _ => true | _ => false end.

(** The frame of a ruleset: the table marker first, the default policies
    of INPUT, FORWARD and OUTPUT on lines 1 to 3, the commit marker last. *)
Definition framed (rules : list string) : Prop :=
  rules !! 0 = Some ("*filter" +:+ LF) /\
  rules !! 1 = Some (":INPUT ACCEPT [0:0]" +:+ LF) /\
  rules !! 2 = Some (":FORWARD ACCEPT [0:0]" +:+ LF) /\
  rules !! 3 = Some (":OUTPUT ACCEPT [0:0]" +:+ LF) /\
  last rules = Some ("COMMIT" +:+ LF).


(** The steps both jobs share once their preconditions hold: generate,
    write, activate. *)
Definition pipeline (P : Platform) (data : Data) : M bool :=
  do '(v4rules, v6rules) <-
    middleware_call "failover.firewall.generate_rules" (generate_rules P data);
  do _ <- middleware_call "failover.firewall.write_files"
            (write_files P v4rules v6rules);
  do _ <- middleware_call "failover.firewall.restore_files"
            (restore_files P v4rules v6rules);
  ret true.

(** No reload command was run. *)
Definition no_popen (t : list event) : Prop :=
  Forall (fun ev => is_popen ev = false) t.

(** A failed write of [path] in the events [t] comes with the error of the
    writer as outcome [r] and with no reload command in [t]. *)
Definition write_failure_aborts {A} (r : outcome A) (t : list event) : Prop :=
  forall path e,
    In (EvWrite path (Some e)) t ->
    r = Raise (CallError ("Failed writing " +:+ path +:+ " with error " +:+ e))
    /\ no_popen t.

(** ** Test platforms *)

Module Test.

Definition w0 : World := {| files := ∅; events := [] |}.

Definition vip4 : Address := {| type := "INET"; address := "10.0.0.5" |}.
Definition vip6 : Address := {| type := "INET6"; address := "fd00::5" |}.
Definition link : Address := {| type := "LINK"; address := "aa:bb:cc" |}.

(** The bytes of [bad], then a byte that starts no UTF-8 sequence. *)
Definition stderr_bytes : list byte := [x62; x61; x64; xff].

(** A platform with admin ports 22, 80 and 443 whose other answers are
    fixed by the arguments: the licensing flag, the VIPs in use, the
    paths whose write fails, and the exit status of each reload. *)
Definition platform (licensed : bool) (in_use : list Address)
    (write_error : string -> option string) (rc4 rc6 : Z) : Platform :=
  {| failover_licensed := fun _ => licensed;
     interface_ip_in_use := fun _ => in_use;
     ssh_config := fun _ => {| tcpport := 22 |};
     system_general_config := fun _ => {| ui_port := 80; ui_httpsport := 443 |};
     os_write := fun path _ w =>
       match write_error path with
       | Some e => Some (e, files w)
       | None => None
       end;
     shell := fun cmd _ =>
       if String.eqb cmd cmd_v4
       then {| returncode := rc4; out := []; err := stderr_bytes |}
       else {| returncode := rc6; out := []; err := stderr_bytes |};
     decode_utf8_ignore := Utf8.decode_ignore |}.

Definition no_error (path : string) : option string := None.

Definition v6_disk_full (path : string) : option string :=
  if String.eqb path V6_FILE
  then Some "[Errno 28] No space left on device"
  else None.

Definition healthy : Platform := platform true [vip4] no_error 0 0.

End Test.

(** ** Further readings of the generator, the writer and the jobs *)

(** The collaborators [generate_rules] queries: none unless it blocks. *)
Definition generator_queries (data : Data) : list event :=
  if drop data
  then [EvCall "ssh.config"; EvCall "system.general.config"]
  else [].

(** The files once both rulesets are written over [fs]. *)
Definition written (v4rules v6rules : list string) (fs : gmap string string)
  : gmap string string :=
  <[V6_FILE := join v6rules]> (<[V4_FILE := join v4rules]> fs).

(** How the shared steps end once the rulesets [v4rules] and [v6rules] are
    generated over the files [fs0]: the outcome, the events after the
    generation, and the files left. *)
Inductive pipeline_end (v4rules v6rules : list string) (fs0 : gmap string string)
  : outcome bool -> list event -> gmap string string -> Prop :=
| end_v4_write (e : string) (fs : gmap string string) :
    pipeline_end v4rules v6rules fs0
      (Raise (CallError ("Failed writing " +:+ V4_FILE +:+ " with error " +:+ e)))
      [EvCall "failover.firewall.write_files"; EvWrite V4_FILE (Some e)]
      fs
| end_v6_write (e : string) (fs : gmap string string) :
    pipeline_end v4rules v6rules fs0
      (Raise (CallError ("Failed writing " +:+ V6_FILE +:+ " with error " +:+ e)))
      [EvCall "failover.firewall.write_files";
       EvWrite V4_FILE None; EvWrite V6_FILE (Some e)]
      fs
| end_v4_reload (text : string) :
    pipeline_end v4rules v6rules fs0
      (Raise (CallError ("Failed restoring firewall rules: " +:+ text)))
      [EvCall "failover.firewall.write_files";
       EvWrite V4_FILE None; EvWrite V6_FILE None;
       EvCall "failover.firewall.restore_files"; EvPopen cmd_v4]
      (written v4rules v6rules fs0)
| end_v6_reload :
    pipeline_end v4rules v6rules fs0
      (Raise (AttributeError "bytes" "deocde"))
      [EvCall "failover.firewall.write_files";
       EvWrite V4_FILE None; EvWrite V6_FILE None;
       EvCall "failover.firewall.restore_files";
       EvPopen cmd_v4; EvPopen cmd_v6]
      (written v4rules v6rules fs0)
| end_done :
    pipeline_end v4rules v6rules fs0
      (Return true)
      [EvCall "failover.firewall.write_files";
       EvWrite V4_FILE None; EvWrite V6_FILE None;
       EvCall "failover.firewall.restore_files";
       EvPopen cmd_v4; EvPopen cmd_v6]
      (written v4rules v6rules fs0).

(** The VIPs [drop_all] discovers when called in [w], and the world in
    which it then has the rules generated. *)
Definition discovered (P : Platform) (w : World) : list Address :=
  interface_ip_in_use P (log (EvCall "failover.licensed") w).

Definition drop_all_generation (w : World) : World :=
  log (EvCall "failover.firewall.generate_rules")
      (log (EvCall "interface.ip_in_use") (log (EvCall "failover.licensed") w)).

(** The text of a rules file that lets everything in. *)
Definition allow_all_text : string :=
  "*filter" +:+ LF +:+ ":INPUT ACCEPT [0:0]" +:+ LF
  +:+ ":FORWARD ACCEPT [0:0]" +:+ LF +:+ ":OUTPUT ACCEPT [0:0]" +:+ LF
  +:+ "COMMIT" +:+ LF.

(** ** Two calls of the activator *)

(** The rules files alone decide what [restore_files] does on [P]: two
    calls, with whatever arguments, in worlds that hold the same two rules
    files end alike and run the same commands. *)
Definition rules_files_decide (P : Platform) : Prop :=
  forall (v4rules v6rules v4rules' v6rules' : list string) (w w' : World),
    files w !! V4_FILE = files w' !! V4_FILE ->
    files w !! V6_FILE = files w' !! V6_FILE ->
    result (restore_files P v4rules v6rules) w
    = result (restore_files P v4rules' v6rules') w' /\
    trace (restore_files P v4rules v6rules) w
    = trace (restore_files P v4rules' v6rules') w'.

Module TestLock.

(** The lock file iptables takes while it changes a table. *)
Definition XTABLES_LOCK : string := "/run/xtables.lock".

(** A platform on which a reload exits with status 4 while the lock is
    held, and with status 0 otherwise, whatever the rules files hold. *)
Definition platform : Platform :=
  {| failover_licensed := fun _ => true;
     interface_ip_in_use := fun _ => [Test.vip4];
     ssh_config := fun _ => {| tcpport := 22 |};
     system_general_config := fun _ => {| ui_port := 80; ui_httpsport := 443 |};
     os_write := fun _ _ _ => None;
     shell := fun _ w =>
       match files w !! XTABLES_LOCK with
       | Some _ => {| returncode := 4; out := []; err := Test.stderr_bytes |}
       | None => {| returncode := 0; out := []; err := [] |}
       end;
     decode_utf8_ignore := Utf8.decode_ignore |}.

(** Two worlds with the same rules files; the lock is held in the second. *)
Definition free : World :=
  {| files := written ["*filter" +:+ LF] ["*filter" +:+ LF] ∅; events := [] |}.

Definition locked : World :=
  {| files := <[XTABLES_LOCK := EmptyString]> (files free); events := [] |}.

End TestLock.

(** ** Proof automation for runs of the jobs *)

Ltac step :=
  cbv beta iota zeta
      delta [bind middleware_call middleware_query perform ret raise];
  cbn [fst snd].

Ltac normalize_events :=
  unfold log; cbn [events files]; rewrite <- ?app_assoc; cbn [app].

Ltac in_trace H :=
  repeat (destruct H as [H|H]; [try discriminate H|]); try contradiction.

Ltac settle_path :=
  step; eexists; split;
  [ normalize_events; reflexivity
  | let H := fresh "H" in
    intros ? ? H; in_trace H;
    try (injection H as <- <-; split; [reflexivity | repeat constructor]) ].

Ltac settle_end :=
  step; eexists _, _, _, _, _;
  split; [eassumption|];
  split; [normalize_events; reflexivity | constructor].

(** * Properties *)

(** ** Worked scenarios *)

Example scenario_A :
  result (generate_rules Test.healthy {| drop := true; vips := [Test.vip4] |})
         Test.w0
  = Return
      (["*filter" +:+ LF;
        ":INPUT ACCEPT [0:0]" +:+ LF;
        ":FORWARD ACCEPT [0:0]" +:+ LF;
        ":OUTPUT ACCEPT [0:0]" +:+ LF;
        "-A INPUT -p tcp -m tcp --dport 22 -j ACCEPT" +:+ LF;
        "-A INPUT -p tcp -m tcp --dport 80 -j ACCEPT" +:+ LF;
        "-A INPUT -p tcp -m tcp --dport 443 -j ACCEPT" +:+ LF;
        "-A INPUT -s 10.0.0.5/32 -j DROP" +:+ LF;
        "COMMIT" +:+ LF],
       ["*filter" +:+ LF;
        ":INPUT ACCEPT [0:0]" +:+ LF;
        ":FORWARD ACCEPT [0:0]" +:+ LF;
        ":OUTPUT ACCEPT [0:0]" +:+ LF;
        "-A INPUT -p tcp -m tcp --dport 22 -j ACCEPT" +:+ LF;
        "-A INPUT -p tcp -m tcp --dport 80 -j ACCEPT" +:+ LF;
        "-A INPUT -p tcp -m tcp --dport 443 -j ACCEPT" +:+ LF;
        "COMMIT" +:+ LF]).
Proof. reflexivity. Qed.

Example scenario_unknown_family :
  result (generate_rules Test.healthy {| drop := true; vips := [Test.link] |})
         Test.w0
  = result (generate_rules Test.healthy {| drop := true; vips := [] |})
           Test.w0.
Proof. reflexivity. Qed.

Example scenario_healthy_drop_all :
  result (drop_all Test.healthy) Test.w0 = Return true /\
  trace (drop_all Test.healthy) Test.w0
  = [EvCall "failover.licensed"; EvCall "interface.ip_in_use";
     EvCall "failover.firewall.generate_rules";
     EvCall "ssh.config"; EvCall "system.general.config";
     EvCall "failover.firewall.write_files";
     EvWrite V4_FILE None; EvWrite V6_FILE None;
     EvCall "failover.firewall.restore_files";
     EvPopen cmd_v4; EvPopen cmd_v6].
Proof. split; reflexivity. Qed.

Example scenario_v4_reload_fails :
  result (drop_all (Test.platform true [Test.vip4] Test.no_error 1 0)) Test.w0
  = Raise (CallError "Failed restoring firewall rules: bad").
Proof. reflexivity. Qed.

Example decode_ignore_ascii :
  Utf8.decode_ignore [x62; x61; x64; xff] = "bad".
Proof. reflexivity. Qed.

Example decode_ignore_truncated :
  Utf8.decode_ignore [xf0; x90; x41] = "A" /\
  Utf8.decode_ignore [x41; xe2; x82] = "A".
Proof. split; reflexivity. Qed.

(** ** Strings *)

Lemma length_append (a b : string) :
  String.length (a +:+ b) = String.length a + String.length b.
Proof. induction a as [|c a IH]; simpl; [reflexivity | now rewrite IH]. Qed.

Lemma ends_with_refl (s : string) : ends_with s s = true.
Proof. destruct s; cbn [ends_with]; now rewrite String.eqb_refl. Qed.

(** A suffix no longer than [s] is looked for in [s] alone. *)
Lemma ends_with_append (suf a s : string) :
  String.length suf <= String.length s ->
  ends_with suf (a +:+ s) = ends_with suf s.
Proof.
  intros Hlen. induction a as [|c a IH]; [reflexivity|].
  change (String c a +:+ s) with (String c (a +:+ s)).
  cbn [ends_with]. rewrite IH.
  destruct (String.eqb_spec (String c (a +:+ s)) suf) as [E|_]; [|reflexivity].
  apply (f_equal String.length) in E. cbn [String.length] in E.
  rewrite length_append in E. lia.
Qed.

Lemma ends_with_tail (suf a b s : string) :
  String.length suf <= String.length s ->
  ends_with suf (a +:+ b +:+ s) = ends_with suf s.
Proof.
  intros Hlen. rewrite ends_with_append.
  - now apply ends_with_append.
  - rewrite length_append. lia.
Qed.

(** ** Classifying the generated lines *)


Lemma accept_line_not_drop (p : Z) : is_drop (accept_line p) = false.
Proof.
  unfold is_drop, accept_line. rewrite ends_with_tail by (vm_compute; lia).
  apply andb_false_r.
Qed.

Lemma v4_drop_line_is_drop (a : string) :
  is_drop ("-A INPUT -s " +:+ a +:+ "/32 -j DROP" +:+ LF) = true.
Proof. unfold is_drop. rewrite ends_with_tail by (vm_compute; lia). reflexivity. Qed.


Lemma v6_drop_line_is_drop (a : string) :
  is_drop ("-A INPUT -d " +:+ a +:+ "/128 -j DROP" +:+ LF) = true.
Proof. unfold is_drop. rewrite ends_with_tail by (vm_compute; lia). reflexivity. Qed.


Lemma filter_none {A} (f : A -> bool) (l : list A) :
  Forall (fun x => f x = false) l -> List.filter f l = [].
Proof.
  induction 1 as [|x l Hx _ IH]; [reflexivity|].
  cbn [List.filter]. now rewrite Hx.
Qed.

Lemma filter_all {A} (f : A -> bool) (l : list A) :
  Forall (fun x => f x = true) l -> List.filter f l = l.
Proof.
  induction 1 as [|x l Hx _ IH]; [reflexivity|].
  cbn [List.filter]. now rewrite Hx, IH.
Qed.


Lemma accepts_not_drops (ports : list Z) :
  Forall (fun l => is_drop l = false) (map accept_line ports).
Proof. apply Forall_map, Forall_forall. intros p _. apply accept_line_not_drop. Qed.

Lemma v4_drops_are_drops (vs : list Address) :
  Forall (fun l => is_drop l = true) (v4_drops vs).
Proof. apply Forall_map, Forall_forall. intros i _. apply v4_drop_line_is_drop. Qed.


Lemma v6_drops_are_drops (vs : list Address) :
  Forall (fun l => is_drop l = true) (v6_drops vs).
Proof. apply Forall_map, Forall_forall. intros i _. apply v6_drop_line_is_drop. Qed.


(** ** The rule generator in closed form *)

Lemma fold_append_vip (vs : list Address) (v4rules v6rules : list string) :
  fold_left append_vip vs (v4rules, v6rules)
  = (v4rules ++ v4_drops vs, v6rules ++ v6_drops vs).
Proof.
  revert v4rules v6rules.
  induction vs as [|i vs IH]; intros v4rules v6rules.
  - unfold v4_drops, v6_drops. cbn. now rewrite !app_nil_r.
  - cbn [fold_left append_vip]. unfold v4_drops, v6_drops, is_inet, is_inet6.
    cbn [List.filter].
    destruct (String.eqb_spec (type i) "INET") as [E|_].
    + rewrite E. cbn [String.eqb Ascii.eqb Bool.eqb map].
      rewrite IH, <- app_assoc. reflexivity.
    + destruct (String.eqb (type i) "INET6").
      * cbn [map]. rewrite IH, <- app_assoc. reflexivity.
      * apply IH.
Qed.

Lemma generate_rules_block (P : Platform) (vs : list Address) (w : World) :
  generate_rules P {| drop := true; vips := vs |} w
  = (Return
       (default_section ++ map accept_line (admin_ports P w)
          ++ v4_drops vs ++ ["COMMIT" +:+ LF],
        default_section ++ map accept_line (admin_ports P w)
          ++ v6_drops vs ++ ["COMMIT" +:+ LF]),
     log (EvCall "system.general.config") (log (EvCall "ssh.config") w)).
Proof.
  unfold generate_rules, bind, middleware_query, perform, ret.
  cbn [drop vips]. rewrite fold_append_vip.
  unfold admin_ports, accept_line, default_section, insert.
  cbn [take list.drop map app]. reflexivity.
Qed.

Lemma generate_rules_allow (P : Platform) (vs : list Address) (w : World) :
  generate_rules P {| drop := false; vips := vs |} w
  = (Return (default_section ++ ["COMMIT" +:+ LF],
             default_section ++ ["COMMIT" +:+ LF]), w).
Proof. reflexivity. Qed.

Lemma generate_rules_returns (P : Platform) (data : Data) (w : World) :
  exists v4rules v6rules tail4 tail6 w',
    generate_rules P data w = (Return (v4rules, v6rules), w') /\
    v4rules = default_section ++ tail4 ++ ["COMMIT" +:+ LF] /\
    v6rules = default_section ++ tail6 ++ ["COMMIT" +:+ LF].
Proof.
  destruct data as [[|] vs].
  - eexists _, _, (map accept_line (admin_ports P w) ++ v4_drops vs),
      (map accept_line (admin_ports P w) ++ v6_drops vs), _.
    rewrite generate_rules_block.
    split; [reflexivity|]. split; now rewrite <- app_assoc.
  - exists (default_section ++ ["COMMIT" +:+ LF]),
           (default_section ++ ["COMMIT" +:+ LF]), [], [], w.
    now rewrite generate_rules_allow.
Qed.


Lemma default_section_plain :
  Forall (fun l => is_accept l = false) default_section /\
  Forall (fun l => is_drop l = false) default_section.
Proof. split; repeat constructor. Qed.


Lemma block_ruleset_drops (ports : list Z) (drops : list string) :
  Forall (fun l => is_drop l = true) drops ->
  List.filter is_drop
    (default_section ++ map accept_line ports ++ drops ++ ["COMMIT" +:+ LF])
  = drops.
Proof.
  intros Hd. rewrite !List.filter_app.
  rewrite (filter_none _ default_section) by apply default_section_plain.
  rewrite (filter_none _ (map _ _)) by apply accepts_not_drops.
  rewrite filter_all by exact Hd.
  cbn. apply app_nil_r.
Qed.


Lemma framed_ruleset (tail : list string) :
  framed (default_section ++ tail ++ ["COMMIT" +:+ LF]).
Proof.
  repeat split; try reflexivity.
  rewrite app_assoc. apply last_snoc.
Qed.

(** ** The rule generator *)


(** C2. In Block mode each ruleset is, line for line, the default
    section, the accept lines of the admin ports, one drop line per entry
    of the VIP list with the family tag of that ruleset (INET for IPv4,
    scoped to the host by /32; INET6 for IPv6, scoped by /128), in the
    order of the list, and the commit marker. So an entry adds exactly one
    line, to the ruleset of its family only, an entry with another family
    tag adds no line to either ruleset, and the call returns. *)
Theorem block_vip_drops (P : Platform) (vs : list Address) (w : World) :
  exists v4rules v6rules w',
    generate_rules P {| drop := true; vips := vs |} w
    = (Return (v4rules, v6rules), w') /\
    let drops4 :=
      map (fun i => "-A INPUT -s " +:+ address i +:+ "/32 -j DROP" +:+ LF)
          (List.filter (fun i => String.eqb (type i) "INET") vs) in
    let drops6 :=
      map (fun i => "-A INPUT -d " +:+ address i +:+ "/128 -j DROP" +:+ LF)
          (List.filter (fun i => String.eqb (type i) "INET6") vs) in
    v4rules
    = ["*filter" +:+ LF;
       ":INPUT ACCEPT [0:0]" +:+ LF;
       ":FORWARD ACCEPT [0:0]" +:+ LF;
       ":OUTPUT ACCEPT [0:0]" +:+ LF]
      ++ map accept_line (admin_ports P w) ++ drops4 ++ ["COMMIT" +:+ LF] /\
    v6rules
    = ["*filter" +:+ LF;
       ":INPUT ACCEPT [0:0]" +:+ LF;
       ":FORWARD ACCEPT [0:0]" +:+ LF;
       ":OUTPUT ACCEPT [0:0]" +:+ LF]
      ++ map accept_line (admin_ports P w) ++ drops6 ++ ["COMMIT" +:+ LF] /\
    List.filter is_drop v4rules = drops4 /\
    List.filter is_drop v6rules = drops6.
Proof.
  eexists _, _, _. rewrite generate_rules_block. split; [reflexivity|].
  cbv zeta. split; [reflexivity|]. split; [reflexivity|]. split.
  - apply block_ruleset_drops, v4_drops_are_drops.
  - apply block_ruleset_drops, v6_drops_are_drops.
Qed.

(** C3. In AllowAll mode, whatever the VIP list, both rulesets are the five
    lines: table marker, the three default policies set to accept, commit
    marker; none of them is an accept rule or a drop rule. *)
Theorem allow_all_ruleset (P : Platform) (vs : list Address) (w : World) :
  let five := ["*filter" +:+ LF;
               ":INPUT ACCEPT [0:0]" +:+ LF;
               ":FORWARD ACCEPT [0:0]" +:+ LF;
               ":OUTPUT ACCEPT [0:0]" +:+ LF;
               "COMMIT" +:+ LF] in
  generate_rules P {| drop := false; vips := vs |} w = (Return (five, five), w) /\
  List.filter is_accept five = [] /\ List.filter is_drop five = [].
Proof. repeat split. Qed.

(** C9. For every input, both rulesets returned by [generate_rules] have
    the table marker as first line, the default policies of INPUT, FORWARD
    and OUTPUT as lines 1 to 3 and the commit marker as last line. *)
Theorem rulesets_framed (P : Platform) (data : Data) (w : World) :
  exists v4rules v6rules w',
    generate_rules P data w = (Return (v4rules, v6rules), w') /\
    framed v4rules /\ framed v6rules.
Proof.
  destruct (generate_rules_returns P data w)
    as (v4rules & v6rules & tail4 & tail6 & w' & Hrun & -> & ->).
  eexists _, _, w'. split; [exact Hrun|]. split; apply framed_ruleset.
Qed.

Lemma v4_drops_match_source (vs : list Address) :
  Forall (fun l => matches_source l = true /\ matches_destination l = false)
         (v4_drops vs).
Proof. apply Forall_map, Forall_forall. intros i _. split; reflexivity. Qed.

Lemma v6_drops_match_destination (vs : list Address) :
  Forall (fun l => matches_destination l = true) (v6_drops vs).
Proof. apply Forall_map, Forall_forall. intros i _. reflexivity. Qed.

(** C6. The drop line of an INET VIP selects packets by source address:
    for the VIP 10.0.0.5 the IPv4 ruleset drops packets coming from it,
    while the IPv6 ruleset drops packets destined to fd00::5. *)
Theorem v4_drop_selects_source :
  exists v4rules v6rules,
    result (generate_rules Test.healthy
              {| drop := true; vips := [Test.vip4; Test.vip6] |}) Test.w0
    = Return (v4rules, v6rules) /\
    List.filter is_drop v4rules = ["-A INPUT -s 10.0.0.5/32 -j DROP" +:+ LF] /\
    List.filter is_drop v6rules = ["-A INPUT -d fd00::5/128 -j DROP" +:+ LF] /\
    forallb matches_destination (List.filter is_drop v4rules) = false /\
    forallb matches_destination (List.filter is_drop v6rules) = true.
Proof. eexists _, _. repeat split. Qed.

(** ** Running the writer, the activator and the jobs *)

Lemma trace_of_events {A} (m : M A) (w : World) (t : list event) :
  events (snd (m w)) = events w ++ t -> trace m w = t.
Proof. unfold trace. intros ->. apply drop_app_length. Qed.

Lemma write_files_run (P : Platform) (v4rules v6rules : list string) (w : World) :
  write_files P v4rules v6rules w
  = match os_write P V4_FILE v4rules w with
    | Some (e, fs) =>
      (Raise (CallError ("Failed writing " +:+ V4_FILE +:+ " with error " +:+ e)),
       {| files := fs; events := events w ++ [EvWrite V4_FILE (Some e)] |})
    | None =>
      let w1 := {| files := <[V4_FILE := join v4rules]> (files w);
                   events := events w ++ [EvWrite V4_FILE None] |} in
      match os_write P V6_FILE v6rules w1 with
      | Some (e, fs) =>
        (Raise (CallError ("Failed writing " +:+ V6_FILE +:+ " with error " +:+ e)),
         {| files := fs; events := events w1 ++ [EvWrite V6_FILE (Some e)] |})
      | None =>
        (Return tt,
         {| files := <[V6_FILE := join v6rules]> (files w1);
            events := events w1 ++ [EvWrite V6_FILE None] |})
      end
    end.
Proof.
  unfold write_files, bind, open_writelines, raise, ret. cbv zeta.
  destruct (os_write P V4_FILE v4rules w) as [[e fs]|]; [reflexivity|].
  destruct (os_write P V6_FILE v6rules _) as [[e fs]|]; reflexivity.
Qed.

Lemma restore_files_run (P : Platform) (v4rules v6rules : list string) (w : World) :
  restore_files P v4rules v6rules w
  = let p1 := shell P cmd_v4 w in
    let w1 := log (EvPopen cmd_v4) w in
    if truthy (returncode p1) then
      (Raise (CallError ("Failed restoring firewall rules: "
                         +:+ decode_utf8_ignore P (err p1))), w1)
    else
      let p2 := shell P cmd_v6 w1 in
      let w2 := log (EvPopen cmd_v6) w1 in
      if truthy (returncode p2)
      then (Raise (AttributeError "bytes" "deocde"), w2)
      else (Return tt, w2).
Proof.
  unfold restore_files, bind, popen, perform, raise, ret. cbv zeta.
  change ("iptables-restore < " +:+ V4_FILE) with cmd_v4.
  change ("ip6tables-restore < " +:+ V6_FILE) with cmd_v6.
  destruct (truthy (returncode (shell P cmd_v4 w))); [reflexivity|].
  destruct (truthy (returncode (shell P cmd_v6 _))); reflexivity.
Qed.

Lemma truthy_zero (n : Z) : n = 0%Z -> truthy n = false.
Proof. now intros ->. Qed.

Lemma truthy_nonzero (n : Z) : n <> 0%Z -> truthy n = true.
Proof. unfold truthy. intros H. now apply Z.eqb_neq in H as ->. Qed.

Lemma pipeline_runs (P : Platform) (data : Data) (w : World) :
  exists t,
    events (snd (pipeline P data w)) = events w ++ t /\
    write_failure_aborts (result (pipeline P data) w) t.
Proof.
  unfold pipeline, result. destruct data as [[|] vs]; step.
  1: rewrite generate_rules_block.
  2: rewrite generate_rules_allow.
  all: step; rewrite write_files_run; cbv zeta.
  all: destruct (os_write P V4_FILE _ _) as [[e4 fs4]|]; [settle_path|].
  all: destruct (os_write P V6_FILE _ _) as [[e6 fs6]|]; [settle_path|].
  all: step; rewrite restore_files_run; cbv zeta.
  all: destruct (truthy (returncode (shell P cmd_v4 _))); [settle_path|].
  all: destruct (truthy (returncode (shell P cmd_v6 _))); settle_path.
Qed.

Lemma write_failure_aborts_call {A} (r : outcome A) (m : string) (t : list event) :
  write_failure_aborts r t -> write_failure_aborts r (EvCall m :: t).
Proof.
  intros Ht path e [H|H]; [discriminate H|].
  destruct (Ht path e H) as [-> Hn]. split; [reflexivity|].
  constructor; [reflexivity | exact Hn].
Qed.

Lemma drop_all_unfold (P : Platform) :
  drop_all P
  = (do licensed <- middleware_query "failover.licensed" (failover_licensed P);
     if negb licensed then ret false
     else
       do vips <- middleware_query "interface.ip_in_use" (interface_ip_in_use P);
       match vips with
       | [] => raise (CallError "No VIP addresses detected on system")
       | _ :: _ => pipeline P {| drop := true; vips := vips |}
       end).
Proof. reflexivity. Qed.

Lemma accept_all_unfold (P : Platform) :
  accept_all P
  = (do licensed <- middleware_query "failover.licensed" (failover_licensed P);
     if negb licensed then ret false
     else pipeline P {| drop := false; vips := [] |}).
Proof. reflexivity. Qed.

Lemma drop_all_runs (P : Platform) (w : World) :
  exists t,
    events (snd (drop_all P w)) = events w ++ t /\
    write_failure_aborts (result (drop_all P) w) t.
Proof.
  unfold result. rewrite drop_all_unfold. step.
  destruct (failover_licensed P w); cbn [negb]; [|settle_path].
  step. destruct (interface_ip_in_use P _) as [|i vs]; [settle_path|].
  destruct (pipeline_runs P {| drop := true; vips := i :: vs |}
              (log (EvCall "interface.ip_in_use")
                   (log (EvCall "failover.licensed") w))) as (t & Hev & Ht).
  eexists. split.
  - rewrite Hev. normalize_events. reflexivity.
  - now do 2 apply write_failure_aborts_call.
Qed.

Lemma accept_all_runs (P : Platform) (w : World) :
  exists t,
    events (snd (accept_all P w)) = events w ++ t /\
    write_failure_aborts (result (accept_all P) w) t.
Proof.
  unfold result. rewrite accept_all_unfold. step.
  destruct (failover_licensed P w); cbn [negb]; [|settle_path].
  destruct (pipeline_runs P {| drop := false; vips := [] |}
              (log (EvCall "failover.licensed") w)) as (t & Hev & Ht).
  eexists. split.
  - rewrite Hev. normalize_events. reflexivity.
  - now apply write_failure_aborts_call.
Qed.

(** ** The activator *)

(** C4, as the code has it. The IPv4 reload is always run; the IPv6 reload
    is run exactly when the IPv4 reload exits with status zero. *)
Theorem restore_files_attempts (P : Platform) (v4rules v6rules : list string)
    (w : World) :
  trace (restore_files P v4rules v6rules) w
  = if (returncode (shell P cmd_v4 w) =? 0)%Z
    then [EvPopen cmd_v4; EvPopen cmd_v6]
    else [EvPopen cmd_v4].
Proof.
  apply trace_of_events. rewrite restore_files_run. cbv zeta. unfold truthy.
  destruct (returncode (shell P cmd_v4 w) =? 0)%Z; cbn [negb].
  - destruct (negb _); normalize_events; reflexivity.
  - reflexivity.
Qed.

(** C4, as stated, fails: when the IPv4 reload exits with status 1 the
    IPv6 reload is not run. *)
Lemma v4_failure_skips_v6 :
  trace (restore_files (Test.platform true [Test.vip4] Test.no_error 1 0) [] [])
        Test.w0
  = [EvPopen cmd_v4] /\
  ~ both_attempted (Test.platform true [Test.vip4] Test.no_error 1 0) [] []
      Test.w0.
Proof.
  split; [reflexivity|]. unfold both_attempted. intros [_ H].
  vm_compute in H. destruct H as [H|[]]. discriminate H.
Qed.

(** X7. When the IPv4 reload exits with a non-zero status, [restore_files]
    raises a CallError whose text is the fixed prefix followed by the
    standard error of that command, decoded with the ignore handler. *)
Lemma restore_files_v4_failure (P : Platform) (v4rules v6rules : list string)
    (w : World) :
  returncode (shell P cmd_v4 w) <> 0%Z ->
  result (restore_files P v4rules v6rules) w
  = Raise (CallError ("Failed restoring firewall rules: "
                      +:+ decode_utf8_ignore P (err (shell P cmd_v4 w)))).
Proof.
  intros H. unfold result. rewrite restore_files_run. cbv zeta.
  now rewrite (truthy_nonzero _ H).
Qed.

(** C5. When the IPv4 reload succeeds and the IPv6 reload exits with a
    non-zero status, [restore_files] raises an AttributeError for the
    attribute [deocde] of bytes: no activation error carrying the decoded
    standard error is raised. *)
Theorem restore_files_v6_failure (P : Platform) (v4rules v6rules : list string)
    (w : World) :
  returncode (shell P cmd_v4 w) = 0%Z ->
  returncode (shell P cmd_v6 (log (EvPopen cmd_v4) w)) <> 0%Z ->
  result (restore_files P v4rules v6rules) w
  = Raise (AttributeError "bytes" "deocde").
Proof.
  intros H4 H6. unfold result. rewrite restore_files_run. cbv zeta.
  now rewrite (truthy_zero _ H4), (truthy_nonzero _ H6).
Qed.

Lemma restore_files_v6_failure_witness :
  returncode (shell (Test.platform true [Test.vip4] Test.no_error 0 2)
                    cmd_v4 Test.w0) = 0%Z /\
  returncode (shell (Test.platform true [Test.vip4] Test.no_error 0 2)
                    cmd_v6 (log (EvPopen cmd_v4) Test.w0)) <> 0%Z /\
  result (restore_files (Test.platform true [Test.vip4] Test.no_error 0 2) [] [])
         Test.w0
  = Raise (AttributeError "bytes" "deocde").
Proof.
  split; [reflexivity|]. split; [discriminate|].
  apply (restore_files_v6_failure
           (Test.platform true [Test.vip4] Test.no_error 0 2) [] [] Test.w0);
    [reflexivity | discriminate].
Defined.

(** Two calls in one and the same world, with whatever rulesets, run the
    same commands, make the same checks and end alike. *)
Lemma restore_files_ignores_arguments (P : Platform)
    (v4rules v6rules v4rules' v6rules' : list string) (w : World) :
  restore_files P v4rules v6rules w = restore_files P v4rules' v6rules' w.
Proof. now rewrite !restore_files_run. Qed.

(** C10, as the code has it. The activator never reads its arguments, and
    what it does is decided by the answers of the two reload commands:
    two calls, with whatever rulesets, in worlds (the same one or two
    different ones) in which iptables-restore answers alike and
    ip6tables-restore, run after it, answers alike, end with the same
    outcome and run the same commands. *)
Theorem restore_files_decided_by_answers (P : Platform)
    (v4rules v6rules v4rules' v6rules' : list string) (w w' : World) :
  shell P cmd_v4 w = shell P cmd_v4 w' ->
  shell P cmd_v6 (log (EvPopen cmd_v4) w)
  = shell P cmd_v6 (log (EvPopen cmd_v4) w') ->
  result (restore_files P v4rules v6rules) w
  = result (restore_files P v4rules' v6rules') w' /\
  trace (restore_files P v4rules v6rules) w
  = trace (restore_files P v4rules' v6rules') w'.
Proof.
  intros H4 H6. split.
  - unfold result. rewrite !restore_files_run. cbv zeta.
    rewrite <- H4, <- H6.
    destruct (truthy (returncode (shell P cmd_v4 w))); [reflexivity|].
    destruct (truthy (returncode (shell P cmd_v6 _))); reflexivity.
  - assert (forall a b x,
               trace (restore_files P a b) x
               = if truthy (returncode (shell P cmd_v4 x))
                 then [EvPopen cmd_v4]
                 else [EvPopen cmd_v4; EvPopen cmd_v6]) as Ht.
    { intros a b x. apply trace_of_events. rewrite restore_files_run.
      cbv zeta.
      destruct (truthy (returncode (shell P cmd_v4 x))); [reflexivity|].
      destruct (truthy _); normalize_events; reflexivity. }
    rewrite !Ht, H4. reflexivity.
Qed.

Lemma restore_files_decided_by_answers_witness :
  let w' := {| files := written ["a" +:+ LF] ["b" +:+ LF] ∅;
               events := [EvCall "failover.licensed"] |} in
  shell Test.healthy cmd_v4 Test.w0 = shell Test.healthy cmd_v4 w' /\
  shell Test.healthy cmd_v6 (log (EvPopen cmd_v4) Test.w0)
  = shell Test.healthy cmd_v6 (log (EvPopen cmd_v4) w') /\
  result (restore_files Test.healthy [] []) Test.w0
  = result (restore_files Test.healthy ["a" +:+ LF] ["b" +:+ LF]) w' /\
  trace (restore_files Test.healthy [] []) Test.w0
  = trace (restore_files Test.healthy ["a" +:+ LF] ["b" +:+ LF]) w'.
Proof.
  intros w'. split; [reflexivity|]. split; [reflexivity|].
  exact (restore_files_decided_by_answers Test.healthy [] []
           ["a" +:+ LF] ["b" +:+ LF] Test.w0 w' eq_refl eq_refl).
Defined.

(** C10, as stated, fails: the two worlds below hold the same rules files,
    yet the activator returns in the first and raises in the second, where
    the lock of the tables is held and the IPv4 reload exits with 4. *)
Lemma same_rules_files_other_outcome :
  files TestLock.free !! V4_FILE = files TestLock.locked !! V4_FILE /\
  files TestLock.free !! V6_FILE = files TestLock.locked !! V6_FILE /\
  result (restore_files TestLock.platform [] []) TestLock.free = Return tt /\
  result (restore_files TestLock.platform [] []) TestLock.locked
  = Raise (CallError "Failed restoring firewall rules: bad") /\
  ~ rules_files_decide TestLock.platform.
Proof.
  assert (files TestLock.free !! V4_FILE = files TestLock.locked !! V4_FILE)
    as H4 by (symmetry; apply lookup_insert_ne; discriminate).
  assert (files TestLock.free !! V6_FILE = files TestLock.locked !! V6_FILE)
    as H6 by (symmetry; apply lookup_insert_ne; discriminate).
  assert (result (restore_files TestLock.platform [] []) TestLock.free
          = Return tt) as Hf by (vm_compute; reflexivity).
  assert (result (restore_files TestLock.platform [] []) TestLock.locked
          = Raise (CallError "Failed restoring firewall rules: bad")) as Hl
    by (vm_compute; reflexivity).
  repeat split; try assumption.
  intros Hd. destruct (Hd [] [] [] [] _ _ H4 H6) as [Hr _].
  rewrite Hf, Hl in Hr. discriminate Hr.
Qed.

(** ** The jobs *)

(** C7. In [drop_all] and in [accept_all], when the write of a rules file
    fails (the IPv4 file or the IPv6 file), the job raises the error of the
    writer and no reload command is run for either family. *)
Theorem write_failure_prevents_activation (P : Platform) (op : M bool)
    (w : World) (path e : string) :
  In op [drop_all P; accept_all P] ->
  In (EvWrite path (Some e)) (trace op w) ->
  result op w
  = Raise (CallError ("Failed writing " +:+ path +:+ " with error " +:+ e)) /\
  no_popen (trace op w).
Proof.
  intros [<-|[<-|[]]] Hin.
  - destruct (drop_all_runs P w) as (t & Hev & Ht).
    rewrite (trace_of_events _ _ _ Hev) in *. now apply Ht.
  - destruct (accept_all_runs P w) as (t & Hev & Ht).
    rewrite (trace_of_events _ _ _ Hev) in *. now apply Ht.
Qed.

Lemma write_failure_prevents_activation_witness :
  let P := Test.platform true [Test.vip4] Test.v6_disk_full 0 0 in
  In (drop_all P) [drop_all P; accept_all P] /\
  In (EvWrite V6_FILE (Some "[Errno 28] No space left on device"))
     (trace (drop_all P) Test.w0) /\
  result (drop_all P) Test.w0
  = Raise (CallError "Failed writing /data/v6-fw.rules with error [Errno 28] No space left on device") /\
  no_popen (trace (drop_all P) Test.w0).
Proof.
  intros P.
  assert (In (drop_all P) [drop_all P; accept_all P]) as Hop
    by (left; reflexivity).
  assert (In (EvWrite V6_FILE (Some "[Errno 28] No space left on device"))
             (trace (drop_all P) Test.w0)) as Hin
    by (vm_compute; do 7 right; left; reflexivity).
  split; [exact Hop|]. split; [exact Hin|].
  exact (write_failure_prevents_activation P (drop_all P) Test.w0 V6_FILE
           "[Errno 28] No space left on device" Hop Hin).
Defined.

(** C8. [drop_all] on a system that is not licensed returns False after
    the licensing query alone; on a licensed system with no VIP in use it
    raises an error after the two queries alone. In both cases nothing is
    generated, no file is written and no reload command is run. *)
Theorem drop_all_preconditions (P : Platform) (w : World) :
  (failover_licensed P w = false ->
   result (drop_all P) w = Return false /\
   trace (drop_all P) w = [EvCall "failover.licensed"] /\
   files (snd (drop_all P w)) = files w) /\
  (failover_licensed P w = true ->
   interface_ip_in_use P (log (EvCall "failover.licensed") w) = [] ->
   result (drop_all P) w
   = Raise (CallError "No VIP addresses detected on system") /\
   trace (drop_all P) w
   = [EvCall "failover.licensed"; EvCall "interface.ip_in_use"] /\
   files (snd (drop_all P w)) = files w).
Proof.
  split.
  - intros Hl. unfold result. rewrite drop_all_unfold.
    repeat split; try apply trace_of_events; step; rewrite Hl; reflexivity.
  - intros Hl Hv. unfold result. rewrite drop_all_unfold.
    repeat split; try apply trace_of_events; step; rewrite Hl; cbn [negb];
      step; rewrite Hv; try reflexivity.
    normalize_events. reflexivity.
Qed.

Lemma drop_all_preconditions_witness :
  let unlicensed := Test.platform false [Test.vip4] Test.no_error 0 0 in
  let no_vips := Test.platform true [] Test.no_error 0 0 in
  (result (drop_all unlicensed) Test.w0 = Return false /\
   trace (drop_all unlicensed) Test.w0 = [EvCall "failover.licensed"] /\
   files (snd (drop_all unlicensed Test.w0)) = files Test.w0) /\
  (result (drop_all no_vips) Test.w0
   = Raise (CallError "No VIP addresses detected on system") /\
   trace (drop_all no_vips) Test.w0
   = [EvCall "failover.licensed"; EvCall "interface.ip_in_use"] /\
   files (snd (drop_all no_vips Test.w0)) = files Test.w0).
Proof.
  intros unlicensed no_vips. split.
  - apply (proj1 (drop_all_preconditions unlicensed Test.w0)). reflexivity.
  - apply (proj2 (drop_all_preconditions no_vips Test.w0)); reflexivity.
Defined.

(** * Further properties *)

(** ** The rule generator *)

Lemma accept_line_ends_with_newline (p : Z) :
  ends_with LF (accept_line p) = true.
Proof.
  unfold accept_line. rewrite ends_with_tail by (vm_compute; lia).
  reflexivity.
Qed.

Lemma v4_drops_end_with_newline (vs : list Address) :
  Forall (fun l => ends_with LF l = true) (v4_drops vs).
Proof.
  apply Forall_map, Forall_forall. intros i _. cbn.
  rewrite ends_with_tail by (vm_compute; lia). reflexivity.
Qed.

Lemma v6_drops_end_with_newline (vs : list Address) :
  Forall (fun l => ends_with LF l = true) (v6_drops vs).
Proof.
  apply Forall_map, Forall_forall. intros i _. cbn.
  rewrite ends_with_tail by (vm_compute; lia). reflexivity.
Qed.

Lemma block_ruleset_newlines (ports : list Z) (drops : list string) :
  Forall (fun l => ends_with LF l = true) drops ->
  Forall (fun l => ends_with LF l = true)
    (default_section ++ map accept_line ports ++ drops ++ ["COMMIT" +:+ LF]).
Proof.
  intros Hd. repeat (apply Forall_app; split).
  - repeat constructor.
  - apply Forall_map, Forall_forall. intros p _.
    apply accept_line_ends_with_newline.
  - exact Hd.
  - repeat constructor.
Qed.

(** X1. Every line of both rulesets returned by [generate_rules] ends with
    a line feed, whatever the mode, the admin ports and the VIP list. *)
Theorem rulesets_newline_terminated (P : Platform) (data : Data) (w : World) :
  exists v4rules v6rules w',
    generate_rules P data w = (Return (v4rules, v6rules), w') /\
    Forall (fun l => ends_with LF l = true) v4rules /\
    Forall (fun l => ends_with LF l = true) v6rules.
Proof.
  destruct data as [[|] vs]; eexists _, _, _.
  - rewrite generate_rules_block. split; [reflexivity|].
    split; apply block_ruleset_newlines.
    + apply v4_drops_end_with_newline.
    + apply v6_drops_end_with_newline.
  - rewrite generate_rules_allow. split; [reflexivity|].
    split; repeat constructor.
Qed.

(** X2. [generate_rules] looks up the admin ports only when it blocks: with
    drop set it queries ssh.config and then system.general.config, without
    it queries nothing; in both modes it leaves the files as they are. *)
Theorem generate_rules_queries (P : Platform) (data : Data) (w : World) :
  trace (generate_rules P data) w = generator_queries data /\
  files (snd (generate_rules P data w)) = files w.
Proof.
  destruct data as [[|] vs]; split.
  - apply trace_of_events. rewrite generate_rules_block.
    cbn [snd]. normalize_events. reflexivity.
  - now rewrite generate_rules_block.
  - apply trace_of_events. rewrite generate_rules_allow.
    cbn [snd]. symmetry. apply app_nil_r.
  - now rewrite generate_rules_allow.
Qed.

Lemma filter_negb_all {A} (f : A -> bool) (l : list A) :
  Forall (fun x => f x = false) l -> List.filter (fun x => negb (f x)) l = l.
Proof.
  intros H. apply filter_all. eapply Forall_impl; [exact H|].
  cbn. now intros x ->.
Qed.

Lemma filter_negb_none {A} (f : A -> bool) (l : list A) :
  Forall (fun x => f x = true) l -> List.filter (fun x => negb (f x)) l = [].
Proof.
  intros H. apply filter_none. eapply Forall_impl; [exact H|].
  cbn. now intros x ->.
Qed.

Lemma block_ruleset_without_drops (ports : list Z) (drops : list string) :
  Forall (fun l => is_drop l = true) drops ->
  List.filter (fun l => negb (is_drop l))
    (default_section ++ map accept_line ports ++ drops ++ ["COMMIT" +:+ LF])
  = default_section ++ map accept_line ports ++ ["COMMIT" +:+ LF].
Proof.
  intros Hd. rewrite !List.filter_app.
  rewrite (filter_negb_all _ default_section) by apply default_section_plain.
  rewrite (filter_negb_all _ (map _ _)) by apply accepts_not_drops.
  rewrite (filter_negb_none _ drops) by exact Hd.
  reflexivity.
Qed.

(** X3. The two families get the same ruleset apart from the drop lines:
    with the drop lines taken out, the IPv4 and the IPv6 ruleset are both
    the default section, then (when blocking) the accept lines of the
    admin ports, then the commit marker. *)
Theorem families_agree_apart_from_drops (P : Platform) (data : Data) (w : World) :
  exists v4rules v6rules w',
    generate_rules P data w = (Return (v4rules, v6rules), w') /\
    let rest :=
      default_section
        ++ (if drop data then map accept_line (admin_ports P w) else [])
        ++ ["COMMIT" +:+ LF] in
    List.filter (fun l => negb (is_drop l)) v4rules = rest /\
    List.filter (fun l => negb (is_drop l)) v6rules = rest.
Proof.
  destruct data as [[|] vs]; eexists _, _, _.
  - rewrite generate_rules_block. split; [reflexivity|]. cbn [drop]. split.
    + apply block_ruleset_without_drops, v4_drops_are_drops.
    + apply block_ruleset_without_drops, v6_drops_are_drops.
  - rewrite generate_rules_allow. split; [reflexivity|]. split; reflexivity.
Qed.

Lemma drops_count (vs : list Address) :
  length (v4_drops vs) + length (v6_drops vs)
  = length (List.filter (fun i => is_inet i || is_inet6 i) vs).
Proof.
  unfold v4_drops, v6_drops. rewrite !length_map.
  induction vs as [|i vs IH]; [reflexivity|].
  cbn [List.filter].
  destruct (is_inet i) eqn:E4, (is_inet6 i) eqn:E6; cbn [orb length]; try lia.
  unfold is_inet in E4. unfold is_inet6 in E6.
  apply String.eqb_eq in E4. rewrite E4 in E6. discriminate E6.
Qed.

(** X16. In Block mode no VIP gets a drop line in both families: the drop
    lines of the two rulesets together are as many as the entries of the
    VIP list tagged INET or INET6. *)
Theorem drop_lines_count (P : Platform) (vs : list Address) (w : World) :
  exists v4rules v6rules w',
    generate_rules P {| drop := true; vips := vs |} w
    = (Return (v4rules, v6rules), w') /\
    length (List.filter is_drop v4rules) + length (List.filter is_drop v6rules)
    = length (List.filter
                (fun i => String.eqb (type i) "INET"
                          || String.eqb (type i) "INET6") vs).
Proof.
  eexists _, _, _. rewrite generate_rules_block. split; [reflexivity|].
  rewrite !block_ruleset_drops
    by (apply v4_drops_are_drops || apply v6_drops_are_drops).
  apply drops_count.
Qed.

(** ** The rule file writer *)

Lemma write_files_cases (P : Platform) (v4rules v6rules : list string) (w : World) :
  (exists e fs,
      write_files P v4rules v6rules w
      = (Raise (CallError ("Failed writing " +:+ V4_FILE +:+ " with error " +:+ e)),
         {| files := fs; events := events w ++ [EvWrite V4_FILE (Some e)] |})) \/
  (exists e fs,
      write_files P v4rules v6rules w
      = (Raise (CallError ("Failed writing " +:+ V6_FILE +:+ " with error " +:+ e)),
         {| files := fs;
            events := events w ++ [EvWrite V4_FILE None; EvWrite V6_FILE (Some e)] |})) \/
  write_files P v4rules v6rules w
  = (Return tt,
     {| files := written v4rules v6rules (files w);
        events := events w ++ [EvWrite V4_FILE None; EvWrite V6_FILE None] |}).
Proof.
  rewrite write_files_run. cbv zeta.
  destruct (os_write P V4_FILE _ _) as [[e fs]|]; [left; eauto|].
  destruct (os_write P V6_FILE _ _) as [[e fs]|]; cbn [events files];
    rewrite <- app_assoc; [right; left; eauto | right; right; reflexivity].
Qed.

Lemma V4_FILE_neq_V6_FILE : V4_FILE <> V6_FILE.
Proof. discriminate. Qed.

(** X4. When [write_files] returns, the IPv4 rules file holds the lines of
    the IPv4 ruleset joined in order, the IPv6 rules file those of the IPv6
    ruleset, every other file is as before, and both writes were made, the
    IPv4 one first. *)
Theorem write_files_success (P : Platform) (v4rules v6rules : list string)
    (w : World) :
  result (write_files P v4rules v6rules) w = Return tt ->
  files (snd (write_files P v4rules v6rules w)) !! V4_FILE = Some (join v4rules) /\
  files (snd (write_files P v4rules v6rules w)) !! V6_FILE = Some (join v6rules) /\
  (forall path, path <> V4_FILE -> path <> V6_FILE ->
     files (snd (write_files P v4rules v6rules w)) !! path = files w !! path) /\
  trace (write_files P v4rules v6rules) w
  = [EvWrite V4_FILE None; EvWrite V6_FILE None].
Proof.
  unfold result. intros Hr.
  destruct (write_files_cases P v4rules v6rules w)
    as [(e & fs & H)|[(e & fs & H)|H]];
    rewrite H in Hr; try discriminate Hr.
  repeat split.
  - rewrite H. cbn [snd files]. unfold written.
    rewrite lookup_insert_ne by (symmetry; apply V4_FILE_neq_V6_FILE).
    apply lookup_insert_eq.
  - rewrite H. cbn [snd files]. apply lookup_insert_eq.
  - intros path H4 H6. rewrite H. cbn [snd files]. unfold written.
    rewrite !lookup_insert_ne by congruence. reflexivity.
  - apply trace_of_events. now rewrite H.
Qed.

Lemma write_files_success_witness :
  result (write_files Test.healthy ["a" +:+ LF; "b" +:+ LF] ["c" +:+ LF]) Test.w0
  = Return tt /\
  files (snd (write_files Test.healthy ["a" +:+ LF; "b" +:+ LF] ["c" +:+ LF] Test.w0))
    !! V4_FILE = Some ("a" +:+ LF +:+ "b" +:+ LF).
Proof.
  split; [reflexivity|].
  apply (write_files_success Test.healthy ["a" +:+ LF; "b" +:+ LF]
           ["c" +:+ LF] Test.w0 eq_refl).
Defined.

(** X5. [write_files] always starts with the IPv4 rules file, and it opens
    the IPv6 rules file only after the IPv4 write succeeded: a failure on
    the IPv4 file leaves the IPv6 file untouched. *)
Theorem write_files_order (P : Platform) (v4rules v6rules : list string)
    (w : World) :
  (exists r, head (trace (write_files P v4rules v6rules) w)
             = Some (EvWrite V4_FILE r)) /\
  (forall r, In (EvWrite V6_FILE r) (trace (write_files P v4rules v6rules) w) ->
             trace (write_files P v4rules v6rules) w
             = [EvWrite V4_FILE None; EvWrite V6_FILE r]).
Proof.
  destruct (write_files_cases P v4rules v6rules w)
    as [(e & fs & H)|[(e & fs & H)|H]];
    (erewrite trace_of_events by (rewrite H; reflexivity));
    (split; [eexists; reflexivity|]); intros r Hin; in_trace Hin;
    try (injection Hin as <-; reflexivity); now injection Hin.
Qed.

(** X6. Whenever [write_files] raises, the error is a CallError naming one
    of the two rules files together with the text of the exception caught,
    and the failed write of that file is the last thing it did. *)
Theorem write_files_failure (P : Platform) (v4rules v6rules : list string)
    (w : World) (x : exn) :
  result (write_files P v4rules v6rules) w = Raise x ->
  exists path e,
    (path = V4_FILE \/ path = V6_FILE) /\
    x = CallError ("Failed writing " +:+ path +:+ " with error " +:+ e) /\
    last (trace (write_files P v4rules v6rules) w)
    = Some (EvWrite path (Some e)).
Proof.
  unfold result. intros Hr.
  destruct (write_files_cases P v4rules v6rules w)
    as [(e & fs & H)|[(e & fs & H)|H]];
    (erewrite trace_of_events by (rewrite H; reflexivity));
    rewrite H in Hr; cbn [fst] in Hr; try discriminate Hr;
    injection Hr as <-; eexists _, e; (split; [|split; reflexivity]); auto.
Qed.

Lemma write_files_failure_witness :
  let P := Test.platform true [Test.vip4] Test.v6_disk_full 0 0 in
  let x := CallError "Failed writing /data/v6-fw.rules with error [Errno 28] No space left on device" in
  result (write_files P [] []) Test.w0 = Raise x /\
  exists path e,
    (path = V4_FILE \/ path = V6_FILE) /\
    x = CallError ("Failed writing " +:+ path +:+ " with error " +:+ e) /\
    last (trace (write_files P [] []) Test.w0) = Some (EvWrite path (Some e)).
Proof.
  intros P x. split; [reflexivity|].
  apply (write_files_failure P [] [] Test.w0 x eq_refl).
Defined.

(** ** The activator *)

Lemma restore_files_v4_failure_witness :
  let P := Test.platform true [Test.vip4] Test.no_error 1 0 in
  returncode (shell P cmd_v4 Test.w0) <> 0%Z /\
  result (restore_files P [] []) Test.w0
  = Raise (CallError "Failed restoring firewall rules: bad").
Proof.
  intros P.
  assert (returncode (shell P cmd_v4 Test.w0) <> 0%Z) as H by discriminate.
  split; [exact H|].
  exact (restore_files_v4_failure P [] [] Test.w0 H).
Defined.

(** X8. [restore_files] returns normally exactly when both reloads exit
    with status zero, and it never changes a file. *)
Theorem restore_files_success (P : Platform) (v4rules v6rules : list string)
    (w : World) :
  (result (restore_files P v4rules v6rules) w = Return tt <->
   returncode (shell P cmd_v4 w) = 0%Z /\
   returncode (shell P cmd_v6 (log (EvPopen cmd_v4) w)) = 0%Z) /\
  files (snd (restore_files P v4rules v6rules w)) = files w.
Proof.
  unfold result. rewrite restore_files_run. cbv zeta. unfold truthy.
  destruct (Z.eqb_spec (returncode (shell P cmd_v4 w)) 0) as [E4|N4];
    cbn [negb];
    [destruct (Z.eqb_spec
                 (returncode (shell P cmd_v6 (log (EvPopen cmd_v4) w))) 0)
        as [E6|N6]; cbn [negb]|];
    cbn [fst snd]; (split; [split|reflexivity]);
    try discriminate; try tauto; auto.
Qed.

(** ** The jobs, path by path *)

Lemma generate_rules_for_pipeline (P : Platform) (data : Data) (w : World) :
  exists v4rules v6rules,
    generate_rules P data w
    = (Return (v4rules, v6rules),
       {| files := files w; events := events w ++ generator_queries data |}).
Proof.
  destruct data as [[|] vs]; eexists _, _.
  - rewrite generate_rules_block. normalize_events. reflexivity.
  - rewrite generate_rules_allow. destruct w as [fs evs]. cbn.
    now rewrite app_nil_r.
Qed.

Lemma pipeline_cases (P : Platform) (data : Data) (w : World) :
  exists v4rules v6rules r t fs,
    result (generate_rules P data)
           (log (EvCall "failover.firewall.generate_rules") w)
    = Return (v4rules, v6rules) /\
    pipeline P data w
    = (r, {| files := fs;
             events := events w
               ++ EvCall "failover.firewall.generate_rules"
                  :: generator_queries data ++ t |}) /\
    pipeline_end v4rules v6rules (files w) r t fs.
Proof.
  unfold pipeline. step.
  destruct (generate_rules_for_pipeline P data
              (log (EvCall "failover.firewall.generate_rules") w))
    as (v4rules & v6rules & Hgen).
  assert (result (generate_rules P data)
                 (log (EvCall "failover.firewall.generate_rules") w)
          = Return (v4rules, v6rules)) as Hres
    by (unfold result; now rewrite Hgen).
  rewrite Hgen. clear Hgen.
  step. rewrite write_files_run. cbv zeta.
  destruct (os_write P V4_FILE _ _) as [[e4 fs4]|]; [settle_end|].
  destruct (os_write P V6_FILE _ _) as [[e6 fs6]|]; [settle_end|].
  step. rewrite restore_files_run. cbv zeta.
  destruct (truthy (returncode (shell P cmd_v4 _))); [settle_end|].
  destruct (truthy (returncode (shell P cmd_v6 _))); settle_end.
Qed.

Lemma drop_all_shape (P : Platform) (w : World) :
  (failover_licensed P w = false /\
   drop_all P w = (Return false, log (EvCall "failover.licensed") w)) \/
  (failover_licensed P w = true /\ discovered P w = [] /\
   drop_all P w
   = (Raise (CallError "No VIP addresses detected on system"),
      log (EvCall "interface.ip_in_use") (log (EvCall "failover.licensed") w))) \/
  (failover_licensed P w = true /\ discovered P w <> [] /\
   exists v4rules v6rules r t fs,
     result (generate_rules P {| drop := true; vips := discovered P w |})
            (drop_all_generation w)
     = Return (v4rules, v6rules) /\
     drop_all P w
     = (r, {| files := fs;
              events := events w
                ++ [EvCall "failover.licensed"; EvCall "interface.ip_in_use";
                    EvCall "failover.firewall.generate_rules";
                    EvCall "ssh.config"; EvCall "system.general.config"]
                ++ t |}) /\
     pipeline_end v4rules v6rules (files w) r t fs).
Proof.
  rewrite drop_all_unfold. unfold discovered, drop_all_generation. step.
  destruct (failover_licensed P w); cbn [negb]; [|left; split; reflexivity].
  right. step.
  destruct (interface_ip_in_use P _) as [|i vs] eqn:Hv;
    [left; repeat split; reflexivity|].
  right. split; [reflexivity|]. split; [discriminate|].
  destruct (pipeline_cases P {| drop := true; vips := i :: vs |}
              (log (EvCall "interface.ip_in_use")
                   (log (EvCall "failover.licensed") w)))
    as (v4rules & v6rules & r & t & fs & Hg & Hp & He).
  exists v4rules, v6rules, r, t, fs. split; [exact Hg|]. split; [|exact He].
  rewrite Hp. normalize_events. reflexivity.
Qed.

Lemma accept_all_shape (P : Platform) (w : World) :
  (failover_licensed P w = false /\
   accept_all P w = (Return false, log (EvCall "failover.licensed") w)) \/
  (failover_licensed P w = true /\
   exists r t fs,
     accept_all P w
     = (r, {| files := fs;
              events := events w
                ++ [EvCall "failover.licensed";
                    EvCall "failover.firewall.generate_rules"]
                ++ t |}) /\
     pipeline_end (default_section ++ ["COMMIT" +:+ LF])
                  (default_section ++ ["COMMIT" +:+ LF]) (files w) r t fs).
Proof.
  rewrite accept_all_unfold. step.
  destruct (failover_licensed P w); cbn [negb]; [|left; split; reflexivity].
  right. split; [reflexivity|].
  destruct (pipeline_cases P {| drop := false; vips := [] |}
              (log (EvCall "failover.licensed") w))
    as (v4rules & v6rules & r & t & fs & Hg & Hp & He).
  unfold result in Hg. rewrite generate_rules_allow in Hg.
  injection Hg as <- <-.
  exists r, t, fs. split; [|exact He].
  rewrite Hp. normalize_events. reflexivity.
Qed.

Lemma written_lookup (v4rules v6rules : list string) (fs : gmap string string) :
  written v4rules v6rules fs !! V4_FILE = Some (join v4rules) /\
  written v4rules v6rules fs !! V6_FILE = Some (join v6rules).
Proof.
  unfold written. split.
  - rewrite lookup_insert_ne by (symmetry; apply V4_FILE_neq_V6_FILE).
    apply lookup_insert_eq.
  - apply lookup_insert_eq.
Qed.

(** ** The jobs *)

(** X9. Whenever [drop_all] runs a reload command, at least one VIP was
    discovered and the rules files hold the two Block-mode rulesets
    generated for the discovered VIPs, every other file being as before;
    this holds also when a reload then fails, since nothing is rolled
    back. *)
Theorem drop_all_activates_generated (P : Platform) (w : World) (c : string) :
  In (EvPopen c) (trace (drop_all P) w) ->
  discovered P w <> [] /\
  exists v4rules v6rules,
    result (generate_rules P {| drop := true; vips := discovered P w |})
           (drop_all_generation w)
    = Return (v4rules, v6rules) /\
    files (snd (drop_all P w)) = written v4rules v6rules (files w).
Proof.
  intros Hin.
  destruct (drop_all_shape P w)
    as [[_ H]|[(_ & _ & H)
             |(_ & Hne & v4rules & v6rules & r & t & fs & Hg & H & He)]].
  - erewrite trace_of_events in Hin by (rewrite H; reflexivity). in_trace Hin.
  - erewrite trace_of_events in Hin
      by (rewrite H; normalize_events; reflexivity).
    in_trace Hin.
  - erewrite trace_of_events in Hin by (rewrite H; reflexivity).
    split; [exact Hne|]. exists v4rules, v6rules. split; [exact Hg|].
    rewrite H. cbn [snd files].
    destruct He; in_trace Hin; reflexivity.
Qed.

Lemma drop_all_activates_generated_witness :
  In (EvPopen cmd_v6) (trace (drop_all Test.healthy) Test.w0) /\
  discovered Test.healthy Test.w0 <> [] /\
  exists v4rules v6rules,
    result (generate_rules Test.healthy
              {| drop := true; vips := discovered Test.healthy Test.w0 |})
           (drop_all_generation Test.w0)
    = Return (v4rules, v6rules) /\
    files (snd (drop_all Test.healthy Test.w0))
    = written v4rules v6rules (files Test.w0).
Proof.
  assert (In (EvPopen cmd_v6) (trace (drop_all Test.healthy) Test.w0)) as Hin
    by (vm_compute; do 10 right; left; reflexivity).
  split; [exact Hin|].
  exact (drop_all_activates_generated Test.healthy Test.w0 cmd_v6 Hin).
Defined.

(** X10. Whenever [accept_all] runs a reload command, both rules files
    hold the same text: the table marker, the three default policies set
    to accept, and the commit marker. *)
Theorem accept_all_activates_allow_all (P : Platform) (w : World) (c : string) :
  In (EvPopen c) (trace (accept_all P) w) ->
  files (snd (accept_all P w)) !! V4_FILE = Some allow_all_text /\
  files (snd (accept_all P w)) !! V6_FILE = Some allow_all_text.
Proof.
  intros Hin.
  destruct (accept_all_shape P w) as [[_ H]|(_ & r & t & fs & H & He)].
  - erewrite trace_of_events in Hin by (rewrite H; reflexivity). in_trace Hin.
  - erewrite trace_of_events in Hin by (rewrite H; reflexivity).
    rewrite H. cbn [snd files].
    destruct He; in_trace Hin; apply written_lookup.
Qed.

Lemma accept_all_activates_allow_all_witness :
  In (EvPopen cmd_v4) (trace (accept_all Test.healthy) Test.w0) /\
  files (snd (accept_all Test.healthy Test.w0)) !! V4_FILE = Some allow_all_text /\
  files (snd (accept_all Test.healthy Test.w0)) !! V6_FILE = Some allow_all_text.
Proof.
  assert (In (EvPopen cmd_v4) (trace (accept_all Test.healthy) Test.w0)) as Hin
    by (vm_compute; do 6 right; left; reflexivity).
  split; [exact Hin|].
  exact (accept_all_activates_allow_all Test.healthy Test.w0 cmd_v4 Hin).
Defined.

(** X11. [accept_all] never asks for the VIPs in use nor for the admin
    ports: no call of interface.ip_in_use, ssh.config or
    system.general.config is made, whatever the platform answers. *)
Theorem accept_all_needs_no_discovery (P : Platform) (w : World) :
  ~ In (EvCall "interface.ip_in_use") (trace (accept_all P) w) /\
  ~ In (EvCall "ssh.config") (trace (accept_all P) w) /\
  ~ In (EvCall "system.general.config") (trace (accept_all P) w).
Proof.
  destruct (accept_all_shape P w) as [[_ H]|(_ & r & t & fs & H & He)];
    (erewrite trace_of_events by (rewrite H; reflexivity)).
  - repeat split; intros Hin; in_trace Hin.
  - destruct He; repeat split; intros Hin; in_trace Hin.
Qed.

(** X12. In [drop_all] and in [accept_all], a reload command is run only
    after both rules files were written without error: the trace shows the
    successful IPv4 write, the successful IPv6 write, the call of
    restore_files and then the IPv4 reload, with no reload before them. *)
Theorem reload_follows_writes (P : Platform) (op : M bool) (w : World)
    (c : string) :
  In op [drop_all P; accept_all P] ->
  In (EvPopen c) (trace op w) ->
  exists pre post,
    trace op w
    = pre ++ [EvWrite V4_FILE None; EvWrite V6_FILE None;
              EvCall "failover.firewall.restore_files"; EvPopen cmd_v4]
          ++ post /\
    no_popen pre.
Proof.
  intros [<-|[<-|[]]] Hin.
  - destruct (drop_all_shape P w)
      as [[_ H]|[(_ & _ & H)
               |(_ & _ & v4rules & v6rules & r & t & fs & _ & H & He)]].
    + erewrite trace_of_events in Hin by (rewrite H; reflexivity).
      in_trace Hin.
    + erewrite trace_of_events in Hin
        by (rewrite H; normalize_events; reflexivity).
      in_trace Hin.
    + erewrite trace_of_events in * by (rewrite H; reflexivity).
      destruct He; in_trace Hin;
        (eexists [_; _; _; _; _; _], _; split;
         [reflexivity | repeat constructor]).
  - destruct (accept_all_shape P w) as [[_ H]|(_ & r & t & fs & H & He)].
    + erewrite trace_of_events in Hin by (rewrite H; reflexivity).
      in_trace Hin.
    + erewrite trace_of_events in * by (rewrite H; reflexivity).
      destruct He; in_trace Hin;
        (eexists [_; _; _], _; split; [reflexivity | repeat constructor]).
Qed.

Lemma reload_follows_writes_witness :
  In (accept_all Test.healthy) [drop_all Test.healthy; accept_all Test.healthy] /\
  In (EvPopen cmd_v6) (trace (accept_all Test.healthy) Test.w0) /\
  exists pre post,
    trace (accept_all Test.healthy) Test.w0
    = pre ++ [EvWrite V4_FILE None; EvWrite V6_FILE None;
              EvCall "failover.firewall.restore_files"; EvPopen cmd_v4]
          ++ post /\
    no_popen pre.
Proof.
  assert (In (accept_all Test.healthy)
             [drop_all Test.healthy; accept_all Test.healthy]) as Hop
    by (right; left; reflexivity).
  assert (In (EvPopen cmd_v6) (trace (accept_all Test.healthy) Test.w0)) as Hin
    by (vm_compute; do 7 right; left; reflexivity).
  split; [exact Hop|]. split; [exact Hin|].
  exact (reload_follows_writes Test.healthy (accept_all Test.healthy) Test.w0
           cmd_v6 Hop Hin).
Defined.

(** X13. [accept_all] on a system that is not licensed returns False after
    the licensing query alone: nothing is generated, no file is written and
    no reload command is run. *)
Theorem accept_all_unlicensed (P : Platform) (w : World) :
  failover_licensed P w = false ->
  result (accept_all P) w = Return false /\
  trace (accept_all P) w = [EvCall "failover.licensed"] /\
  files (snd (accept_all P w)) = files w.
Proof.
  intros Hl.
  destruct (accept_all_shape P w) as [[_ H]|(Ht & _)]; [|congruence].
  unfold result. repeat split.
  - now rewrite H.
  - apply trace_of_events. now rewrite H.
  - now rewrite H.
Qed.

Lemma accept_all_unlicensed_witness :
  let P := Test.platform false [Test.vip4] Test.no_error 0 0 in
  failover_licensed P Test.w0 = false /\
  result (accept_all P) Test.w0 = Return false /\
  trace (accept_all P) Test.w0 = [EvCall "failover.licensed"] /\
  files (snd (accept_all P Test.w0)) = files Test.w0.
Proof.
  intros P. split; [reflexivity|].
  exact (accept_all_unlicensed P Test.w0 eq_refl).
Defined.

(** X14. [drop_all] and [accept_all] return True only on a licensed system
    and only after both rules files were written and both reload commands
    were run, the IPv4 one first; these are the last five events. *)
Theorem success_follows_activation (P : Platform) (op : M bool) (w : World) :
  In op [drop_all P; accept_all P] ->
  result op w = Return true ->
  failover_licensed P w = true /\
  exists pre,
    trace op w
    = pre ++ [EvWrite V4_FILE None; EvWrite V6_FILE None;
              EvCall "failover.firewall.restore_files";
              EvPopen cmd_v4; EvPopen cmd_v6] /\
    no_popen pre.
Proof.
  unfold result. intros [<-|[<-|[]]] Hr.
  - destruct (drop_all_shape P w)
      as [[_ H]|[(_ & _ & H)
               |(Hl & _ & v4rules & v6rules & r & t & fs & _ & H & He)]];
      rewrite H in Hr; cbn [fst] in Hr; try discriminate Hr.
    split; [exact Hl|].
    erewrite trace_of_events by (rewrite H; reflexivity).
    destruct He; try discriminate Hr.
    eexists [_; _; _; _; _; _]. split; [reflexivity | repeat constructor].
  - destruct (accept_all_shape P w) as [[_ H]|(Hl & r & t & fs & H & He)];
      rewrite H in Hr; cbn [fst] in Hr; try discriminate Hr.
    split; [exact Hl|].
    erewrite trace_of_events by (rewrite H; reflexivity).
    destruct He; try discriminate Hr.
    eexists [_; _; _]. split; [reflexivity | repeat constructor].
Qed.

Lemma success_follows_activation_witness :
  In (drop_all Test.healthy) [drop_all Test.healthy; accept_all Test.healthy] /\
  result (drop_all Test.healthy) Test.w0 = Return true /\
  failover_licensed Test.healthy Test.w0 = true /\
  exists pre,
    trace (drop_all Test.healthy) Test.w0
    = pre ++ [EvWrite V4_FILE None; EvWrite V6_FILE None;
              EvCall "failover.firewall.restore_files";
              EvPopen cmd_v4; EvPopen cmd_v6] /\
    no_popen pre.
Proof.
  assert (In (drop_all Test.healthy)
             [drop_all Test.healthy; accept_all Test.healthy]) as Hop
    by (left; reflexivity).
  split; [exact Hop|]. split; [reflexivity|].
  exact (success_follows_activation Test.healthy (drop_all Test.healthy)
           Test.w0 Hop eq_refl).
Defined.

(** X15. [drop_all] and [accept_all] return False exactly when the system
    is not licensed: on a licensed system they return True or raise. *)
Theorem false_means_unlicensed (P : Platform) (op : M bool) (w : World) :
  In op [drop_all P; accept_all P] ->
  result op w = Return false <-> failover_licensed P w = false.
Proof.
  unfold result. intros [<-|[<-|[]]].
  - destruct (drop_all_shape P w)
      as [[Hl H]|[(Hl & _ & H)
                |(Hl & _ & v4rules & v6rules & r & t & fs & _ & H & He)]];
      rewrite H, Hl; cbn [fst]; [tauto | split; discriminate |].
    destruct He; split; discriminate.
  - destruct (accept_all_shape P w) as [[Hl H]|(Hl & r & t & fs & H & He)];
      rewrite H, Hl; cbn [fst]; [tauto|].
    destruct He; split; discriminate.
Qed.

Lemma false_means_unlicensed_witness :
  let P := Test.platform false [Test.vip4] Test.no_error 0 0 in
  In (drop_all P) [drop_all P; accept_all P] /\
  (result (drop_all P) Test.w0 = Return false <->
   failover_licensed P Test.w0 = false).
Proof.
  intros P.
  assert (In (drop_all P) [drop_all P; accept_all P]) as Hop
    by (left; reflexivity).
  split; [exact Hop|].
  exact (false_means_unlicensed P (drop_all P) Test.w0 Hop).
Defined.
